(** * mt5_executor.py: the MetaTrader 5 bridge, embedded and verified

    The script opens a session on the trading terminal, and either reports
    the account it is logged into ([check_connection]) or validates a JSON
    signal and submits one market order ([execute_trade]).  Every run prints
    JSON documents on standard output and ends with a process exit status.

    The embedding follows the script statement by statement.  Python values
    are the values [json.loads] produces; exceptions are a class and a
    message; the terminal binding is an interface whose calls thread a
    terminal state; the program runs in a state-and-exception monad whose
    state also records, in order, every call made to the terminal and every
    document printed. *)

From Stdlib Require Import ZArith List String Bool.
From Stdlib Require Import Floats.SpecFloat.
Import ListNotations.

Local Open Scope string_scope.
Local Open Scope Z_scope.

Set Warnings "-register-all".

(** ** Python values and exceptions *)

(** A Python [float] is an IEEE 754 binary64 number. *)
Definition pyfloat : Type := spec_float.

(** The values [json.loads] builds, which are also the values [json.dumps]
    prints: a [dict] keeps its keys in insertion order, and a tuple is
    printed as a list. *)
Inductive pyval : Type :=
| PNone
| PBool (b : bool)
| PInt (z : Z)
| PFloat (f : pyfloat)
| PStr (s : string)
| PList (l : list pyval)
| PDict (d : list (string * pyval)).

(** The exception classes the script meets; the messages of the exceptions
    the interpreter raises are written as CPython 3.11 words them.
    [JSONDecodeError] and [UnicodeDecodeError] derive from [ValueError];
    [Exception_] is the base class itself, raised by [raise Exception(...)];
    [TerminalFailure] stands for the classes of the binding's own, which
    derive from [Exception] and not from [ValueError]. *)
Inductive exc_class : Type :=
| ValueError
| JSONDecodeError
| UnicodeDecodeError
| TypeError
| OverflowError
| AttributeError
| KeyError
| RecursionError
| Exception_
| TerminalFailure.

(** [SystemExit] derives from [BaseException] only: no [except Exception]
    clause catches it. *)
Inductive exn : Type :=
| SystemExit (code : Z)
| Exc (c : exc_class) (msg : string).

Definition isinstance_ValueError (c : exc_class) : bool :=
  match c with
  | ValueError | JSONDecodeError | UnicodeDecodeError => true
  | _ => false
  end.

Definition isinstance_JSONDecodeError (c : exc_class) : bool :=
  match c with
  | JSONDecodeError => true
  | _ => false
  end.

(** What a statement of the script ends with. *)
Inductive result (A : Type) : Type :=
| Ret (a : A)
| Raise (e : exn).
Arguments Ret {A} a.
Arguments Raise {A} e.

(** What an operation of the interpreter evaluates to: a value, or an
    exception of the [Exception] hierarchy. *)
Inductive evaluated (A : Type) : Type :=
| Ok (a : A)
| Err (c : exc_class) (msg : string).
Arguments Ok {A} a.
Arguments Err {A} c msg.

(** What the interpreter's own library computes and the script relies on:
    [float] applied to a string ([None] when it raises [ValueError]) and
    [repr]. *)
Record Builtins : Type := {
  float_of_str : string -> option pyfloat;
  py_repr : pyval -> string
}.

Definition type_name (v : pyval) : string :=
  match v with
  | PNone => "NoneType"
  | PBool _ => "bool"
  | PInt _ => "int"
  | PFloat _ => "float"
  | PStr _ => "str"
  | PList _ => "list"
  | PDict _ => "dict"
  end.

(** [x == s] for a string [s]: only a string equals a string. *)
Definition py_eq_str (x : pyval) (s : string) : bool :=
  match x with
  | PStr s' => String.eqb s' s
  | _ => false
  end.

Fixpoint dict_get (d : list (string * pyval)) (k : string) : option pyval :=
  match d with
  | [] => None
  | (k', v) :: rest => if String.eqb k' k then Some v else dict_get rest k
  end.

Definition is_some {A} (o : option A) : bool :=
  match o with Some _ => true | None => false end.

(** [needle in haystack] on strings is the substring test. *)
Definition str_contains (haystack needle : string) : bool :=
  is_some (String.index 0 needle haystack).

(** [key in container]. *)
Definition py_contains (key : string) (container : pyval) : evaluated bool :=
  match container with
  | PDict d => Ok (is_some (dict_get d key))
  | PList l => Ok (existsb (fun x => py_eq_str x key) l)
  | PStr s => Ok (str_contains s key)
  | v => Err TypeError
           ("argument of type '" ++ type_name v ++ "' is not iterable")
  end.

(** [container[key]] for a string [key]. *)
Definition py_getitem (bi : Builtins) (container : pyval) (key : string)
  : evaluated pyval :=
  match container with
  | PDict d =>
      match dict_get d key with
      | Some v => Ok v
      | None => Err KeyError (py_repr bi (PStr key))
      end
  | PList _ => Err TypeError "list indices must be integers or slices, not str"
  | PStr _ => Err TypeError "string indices must be integers, not 'str'"
  | v => Err TypeError ("'" ++ type_name v ++ "' object is not subscriptable")
  end.

(** [float(n)] for an [int]: the nearest binary64 number, ties to even;
    [None] when the integer is out of range ([OverflowError]). *)
Definition float_of_int (z : Z) : option pyfloat :=
  match binary_normalize 53 1024 z 0 false with
  | S754_infinity _ => None
  | f => Some f
  end.

Definition float_of_bool (b : bool) : pyfloat :=
  if b then binary_normalize 53 1024 1 0 false else S754_zero false.

(** [float(v)]. *)
Definition py_float (bi : Builtins) (v : pyval) : evaluated pyfloat :=
  match v with
  | PFloat f => Ok f
  | PInt z =>
      match float_of_int z with
      | Some f => Ok f
      | None => Err OverflowError "int too large to convert to float"
      end
  | PBool b => Ok (float_of_bool b)
  | PStr s =>
      match float_of_str bi s with
      | Some f => Ok f
      | None =>
          Err ValueError
            ("could not convert string to float: " ++ py_repr bi (PStr s))
      end
  | v => Err TypeError
           ("float() argument must be a string or a real number, not '"
            ++ type_name v ++ "'")
  end.

(** [str(v)], which is what an f-string substitutes. *)
Definition py_str (bi : Builtins) (v : pyval) : string :=
  match v with
  | PStr s => s
  | _ => py_repr bi v
  end.

(** ** The MetaTrader5 binding *)

(** The constants of the binding that the script names. *)
Definition TRADE_ACTION_DEAL : Z := 1.
Definition ORDER_TYPE_BUY : Z := 0.
Definition ORDER_TYPE_SELL : Z := 1.
Definition ORDER_TIME_GTC : Z := 0.
Definition ORDER_FILLING_IOC : Z := 1.
Definition TRADE_RETCODE_DONE : Z := 10009.

(** The attributes the script reads from what the terminal returns. *)
Record AccountInfo : Type := {
  login : Z;
  server : string;
  balance : pyfloat;
  equity : pyfloat
}.

Record SymbolInfo : Type := { visible : bool }.

Record Tick : Type := { ask : pyfloat; bid : pyfloat }.

Record OrderSendResult : Type := {
  retcode : Z;
  order : Z;
  volume : pyfloat;
  price : pyfloat;
  comment : string
}.

(** The [request] dictionary of [execute_trade], one field per key. *)
Record TradeRequest : Type := {
  rq_action : Z;
  rq_symbol : pyval;
  rq_volume : pyfloat;
  rq_type : Z;
  rq_price : pyfloat;
  rq_sl : pyfloat;
  rq_tp : pyfloat;
  rq_deviation : Z;
  rq_magic : Z;
  rq_comment : string;
  rq_type_time : Z;
  rq_type_filling : Z
}.

(** A call of the binding either returns or raises an exception, of any
    class of the [Exception] hierarchy. *)
Inductive outcome (X : Type) : Type :=
| Returns (x : X)
| Fails (c : exc_class) (msg : string).
Arguments Returns {X} x.
Arguments Fails {X} c msg.

(** The terminal behind the binding: each call reads and may change the
    terminal's state [T].  Opening and closing the session and reading the
    last error always return; the queries and the submission return a value,
    [None] where the binding has nothing to return, or raise. *)
Record Terminal (T : Type) : Type := {
  initialize : T -> bool * T;
  last_error : T -> (Z * string) * T;
  shutdown : T -> T;
  account_info : T -> outcome (option AccountInfo) * T;
  symbol_info : pyval -> T -> outcome (option SymbolInfo) * T;
  symbol_select : pyval -> bool -> T -> outcome bool * T;
  symbol_info_tick : pyval -> T -> outcome (option Tick) * T;
  order_send : TradeRequest -> T -> outcome (option OrderSendResult) * T
}.
Arguments initialize {T}.
Arguments last_error {T}.
Arguments shutdown {T}.
Arguments account_info {T}.
Arguments symbol_info {T}.
Arguments symbol_select {T}.
Arguments symbol_info_tick {T}.
Arguments order_send {T}.

(** What a run does that the outside can see, in order. *)
Inductive event : Type :=
| Call_initialize
| Call_last_error
| Call_shutdown
| Call_account_info
| Call_symbol_info (symbol : pyval)
| Call_symbol_select (symbol : pyval) (enable : bool)
| Call_symbol_info_tick (symbol : pyval)
| Call_order_send (request : TradeRequest)
| Print (document : pyval)
| Print_help (text : string).

(** ** The monad of the script: terminal state, trace, exceptions *)

Record world (T : Type) : Type := { term : T; trace : list event }.
Arguments term {T}.
Arguments trace {T}.

Definition M (T A : Type) : Type := world T -> result A * world T.

Definition ret {T A} (a : A) : M T A := fun w => (Ret a, w).

Definition bind {T A B} (m : M T A) (k : A -> M T B) : M T B :=
  fun w =>
    match m w with
    | (Ret a, w') => k a w'
    | (Raise e, w') => (Raise e, w')
    end.

Definition raise {T A} (e : exn) : M T A := fun w => (Raise e, w).

Definition lift {T A} (r : evaluated A) : M T A := fun w =>
  match r with
  | Ok a => (Ret a, w)
  | Err c msg => (Raise (Exc c msg), w)
  end.

(** [try: body except ...]: [handlers e] is the clause that matches [e], if
    one does; the state reached when [e] was raised is kept. *)
Definition try_except {T A} (body : M T A) (handlers : exn -> option (M T A))
  : M T A :=
  fun w =>
    match body w with
    | (Ret a, w') => (Ret a, w')
    | (Raise e, w') =>
        match handlers e with
        | Some h => h w'
        | None => (Raise e, w')
        end
    end.

Declare Scope py_scope.
Delimit Scope py_scope with py.
Notation "x <- m ;; k" := (bind m (fun x => k))
  (at level 61, m at next level, right associativity) : py_scope.
Notation "m ;; k" := (bind m (fun _ => k))
  (at level 61, right associativity) : py_scope.
Local Open Scope py_scope.

Fixpoint for_each {T A} (l : list A) (body : A -> M T unit) : M T unit :=
  match l with
  | [] => ret tt
  | x :: rest => body x ;; for_each rest body
  end.

Definition log {T} (e : event) (w : world T) : list event := trace w ++ [e].

Definition of_outcome {X} (o : outcome X) : result X :=
  match o with
  | Returns x => Ret x
  | Fails c msg => Raise (Exc c msg)
  end.

(** What [argparse] makes of the command line: the namespace with its one
    flag, or one of the two ways in which [parse_args] leaves the process. *)
Inductive parsed_arguments : Type :=
| Namespace (check_connection : bool)
| Usage_error
| Help (text : string).

Definition is_ok {A} (r : evaluated A) : bool :=
  match r with Ok _ => true | Err _ _ => false end.

(** Reading and parsing standard input gave a value or the one exception
    the [__main__] block catches. *)
Definition decoded (stdin : evaluated pyval) : bool :=
  match stdin with
  | Ok _ => true
  | Err c _ => isinstance_JSONDecodeError c
  end.

Section Script.

Context {T : Type}.
Variable mt5 : Terminal T.
Variable bi : Builtins.

(** *** Calls of the binding and [print] *)

Definition mt5_initialize : M T bool := fun w =>
  let (b, t) := initialize mt5 (term w) in
  (Ret b, {| term := t; trace := log Call_initialize w |}).

Definition mt5_last_error : M T (Z * string) := fun w =>
  let (e, t) := last_error mt5 (term w) in
  (Ret e, {| term := t; trace := log Call_last_error w |}).

Definition mt5_shutdown : M T unit := fun w =>
  (Ret tt, {| term := shutdown mt5 (term w); trace := log Call_shutdown w |}).

Definition mt5_account_info : M T (option AccountInfo) := fun w =>
  let (o, t) := account_info mt5 (term w) in
  (of_outcome o, {| term := t; trace := log Call_account_info w |}).

Definition mt5_symbol_info (symbol : pyval) : M T (option SymbolInfo) := fun w =>
  let (o, t) := symbol_info mt5 symbol (term w) in
  (of_outcome o, {| term := t; trace := log (Call_symbol_info symbol) w |}).

Definition mt5_symbol_select (symbol : pyval) (enable : bool) : M T bool :=
  fun w =>
    let (o, t) := symbol_select mt5 symbol enable (term w) in
    (of_outcome o,
     {| term := t; trace := log (Call_symbol_select symbol enable) w |}).

Definition mt5_symbol_info_tick (symbol : pyval) : M T (option Tick) := fun w =>
  let (o, t) := symbol_info_tick mt5 symbol (term w) in
  (of_outcome o, {| term := t; trace := log (Call_symbol_info_tick symbol) w |}).

Definition mt5_order_send (request : TradeRequest)
  : M T (option OrderSendResult) := fun w =>
  let (o, t) := order_send mt5 request (term w) in
  (of_outcome o, {| term := t; trace := log (Call_order_send request) w |}).

(** [print(json.dumps(document))] *)
Definition print (document : pyval) : M T unit := fun w =>
  (Ret tt, {| term := term w; trace := log (Print document) w |}).

Definition sys_exit {A} (code : Z) : M T A := raise (SystemExit code).

(** *** The documents the script prints *)

Definition initialization_failed (err : Z * string) : pyval :=
  PDict [("success", PBool false);
         ("error", PDict [("code", PList [PInt (fst err); PStr (snd err)]);
                          ("message", PStr "MT5 initialization failed")])].

Definition connection_result (info : option AccountInfo) : pyval :=
  PDict [("success", PBool (is_some info));
         ("account_info",
          match info with
          | Some a => PDict [("login", PInt (login a));
                             ("server", PStr (server a));
                             ("balance", PFloat (balance a));
                             ("equity", PFloat (equity a))]
          | None => PNone
          end)].

Definition connection_error (msg : string) : pyval :=
  PDict [("success", PBool false);
         ("error", PDict [("message", PStr msg);
                          ("type", PStr "CONNECTION_ERROR")])].

Definition error_document (kind msg : string) : pyval :=
  PDict [("success", PBool false);
         ("error", PDict [("type", PStr kind); ("message", PStr msg)])].

Definition order_response (r : OrderSendResult) : pyval :=
  PDict [("success", PBool true);
         ("order", PDict [("ticket", PInt (order r));
                          ("volume", PFloat (volume r));
                          ("price", PFloat (price r));
                          ("comment", PStr (comment r))])].

(** *** The script *)

Definition initialize_mt5 : M T unit :=
  ok <- mt5_initialize ;;
  if negb ok then
    err <- mt5_last_error ;;
    print (initialization_failed err) ;;
    mt5_shutdown ;;
    sys_exit 1
  else ret tt.

Definition check_connection : M T bool :=
  try_except
    (initialize_mt5 ;;
     info <- mt5_account_info ;;
     let connected := is_some info in
     print (connection_result info) ;;
     mt5_shutdown ;;
     ret connected)
    (fun e =>
       match e with
       | Exc _ msg => Some (print (connection_error msg) ;; ret false)
       | SystemExit _ => None
       end).

Definition required_fields : list string :=
  ["symbol"; "volume"; "action"; "tp"; "sl"].

(** The body of the loop over [required_fields]. *)
Definition require_field (signal_data : pyval) (field : string) : M T unit :=
  present <- lift (py_contains field signal_data) ;;
  if negb present
  then raise (Exc ValueError ("Missing required field: " ++ field))
  else ret tt.

Definition validate_required_fields (signal_data : pyval) : M T unit :=
  for_each required_fields (require_field signal_data).

Definition build_request (symbol : pyval) (volume : pyfloat) (action : pyval)
  (tp sl : pyfloat) (tick : Tick) : TradeRequest :=
  let order_type :=
    if py_eq_str action "BUY" then ORDER_TYPE_BUY else ORDER_TYPE_SELL in
  let price := if py_eq_str action "BUY" then ask tick else bid tick in
  {| rq_action := TRADE_ACTION_DEAL;
     rq_symbol := symbol;
     rq_volume := volume;
     rq_type := order_type;
     rq_price := price;
     rq_sl := sl;
     rq_tp := tp;
     rq_deviation := 10;
     rq_magic := 202504;
     rq_comment := "Teaka AutoExec";
     rq_type_time := ORDER_TIME_GTC;
     rq_type_filling := ORDER_FILLING_IOC |}.

(** From [mt5.order_send] to the end of the [try]. *)
Definition send_order (request : TradeRequest) : M T unit :=
  sent <- mt5_order_send request ;;
  match sent with
  | None =>
      raise (Exc AttributeError "'NoneType' object has no attribute 'retcode'")
  | Some result =>
      if negb (retcode result =? TRADE_RETCODE_DONE)
      then raise (Exc Exception_ ("Order failed: " ++ comment result))
      else
        print (order_response result) ;;
        mt5_shutdown
  end.

(** The body of the [try] of [execute_trade]. *)
Definition execute_trade_body (signal_data : pyval) : M T unit :=
  initialize_mt5 ;;
  validate_required_fields signal_data ;;
  symbol <- lift (py_getitem bi signal_data "symbol") ;;
  volume_value <- lift (py_getitem bi signal_data "volume") ;;
  volume <- lift (py_float bi volume_value) ;;
  action <- lift (py_getitem bi signal_data "action") ;;
  tp_value <- lift (py_getitem bi signal_data "tp") ;;
  tp <- lift (py_float bi tp_value) ;;
  sl_value <- lift (py_getitem bi signal_data "sl") ;;
  sl <- lift (py_float bi sl_value) ;;
  symbol_info <- mt5_symbol_info symbol ;;
  match symbol_info with
  | None =>
      raise (Exc ValueError ("Symbol " ++ py_str bi symbol ++ " not found"))
  | Some info =>
      (if negb (visible info) then
         selected <- mt5_symbol_select symbol true ;;
         if negb selected
         then raise (Exc ValueError
                       ("Symbol " ++ py_str bi symbol ++ " selection failed"))
         else ret tt
       else ret tt) ;;
      tick <- mt5_symbol_info_tick symbol ;;
      match tick with
      | None =>
          raise (Exc ValueError
                   ("Failed to get price for " ++ py_str bi symbol))
      | Some tick =>
          send_order (build_request symbol volume action tp sl tick)
      end
  end.

Definition execute_trade (signal_data : pyval) : M T unit :=
  try_except (execute_trade_body signal_data)
    (fun e =>
       match e with
       | SystemExit _ => None
       | Exc c msg =>
           if isinstance_ValueError c
           then Some (print (error_document "VALIDATION_ERROR" msg) ;;
                      mt5_shutdown)
           else Some (print (error_document "EXECUTION_ERROR" msg) ;;
                      mt5_shutdown)
       end).

(** [json.loads(sys.stdin.read())].  [stdin] is what reading and parsing
    standard input comes to: [Ok v] when the text is a JSON document the
    interpreter can build, [Err JSONDecodeError _] when the text is not
    JSON, and [Err c _] for another class when reading or parsing raises
    something else ([UnicodeDecodeError] on undecodable bytes,
    [RecursionError] on nesting too deep, [ValueError] on an integer with
    too many digits). *)
Definition json_loads_stdin (stdin : evaluated pyval) : M T pyval :=
  lift stdin.

(** The [if] of the [__main__] block, once [parser.parse_args()] has
    returned [args]; [flag] is [args.check_connection]. *)
Definition main (flag : bool) (stdin : evaluated pyval) : M T unit :=
  if flag then
    check_connection ;; ret tt
  else
    try_except
      (signal_data <- json_loads_stdin stdin ;;
       execute_trade signal_data)
      (fun e =>
         match e with
         | Exc c _ =>
             if isinstance_JSONDecodeError c
             then Some (print (error_document "INVALID_JSON"
                                 "Failed to parse signal data"))
             else None
         | SystemExit _ => None
         end).

(** The status the interpreter exits with: 0 when the script runs to its
    end, the code of [sys.exit], 1 after an exception nobody caught. *)
Definition exit_status {A} (r : result A) : Z :=
  match r with
  | Ret _ => 0
  | Raise (SystemExit code) => code
  | Raise (Exc _ _) => 1
  end.

(** [parser.parse_args()]: the namespace, or the exit of argparse, with
    status 2 after a usage error (written on standard error) and status 0
    after the help text (written on standard output). *)
Definition parse_args (command_line : parsed_arguments) : M T bool :=
  match command_line with
  | Namespace check_connection => ret check_connection
  | Usage_error => sys_exit 2
  | Help text =>
      (fun w => (Ret tt, {| term := term w; trace := log (Print_help text) w |})) ;;
      sys_exit 0
  end.

(** The [__main__] block as a whole. *)
Definition dunder_main (command_line : parsed_arguments)
  (stdin : evaluated pyval) : M T unit :=
  flag <- parse_args command_line ;;
  main flag stdin.

Definition start (t : T) : world T := {| term := t; trace := [] |}.

(** A process whose command line [parse_args] accepts: exit status and
    trace. *)
Definition run_process (flag : bool) (stdin : evaluated pyval) (t : T)
  : Z * list event :=
  let (r, w) := main flag stdin (start t) in (exit_status r, trace w).

(** A process, whatever its command line. *)
Definition run_command_line (command_line : parsed_arguments)
  (stdin : evaluated pyval) (t : T) : Z * list event :=
  let (r, w) := dunder_main command_line stdin (start t) in
  (exit_status r, trace w).

Definition run_check_connection (t : T) : result bool * world T :=
  check_connection (start t).

Definition run_execute_trade (signal_data : pyval) (t : T)
  : result unit * world T :=
  execute_trade signal_data (start t).

End Script.

(** ** Reading a trace *)

Definition printed (tr : list event) : list pyval :=
  flat_map (fun e => match e with Print d => [d] | _ => [] end) tr.

Definition orders_sent (tr : list event) : list TradeRequest :=
  flat_map (fun e => match e with Call_order_send r => [r] | _ => [] end) tr.

Definition is_shutdown (e : event) : bool :=
  match e with Call_shutdown => true | _ => false end.

Definition shutdown_called (tr : list event) : bool := existsb is_shutdown tr.

Definition account_info_of (document : pyval) : option pyval :=
  match document with
  | PDict d => dict_get d "account_info"
  | _ => None
  end.

(** ** The conditions under which [execute_trade] reaches its submission *)

(** The signal has the five fields, and [volume], [tp] and [sl] coerce. *)
Definition signal_fields (bi : Builtins) (signal_data : pyval)
  (symbol : pyval) (volume : pyfloat) (action : pyval) (tp sl : pyfloat)
  : Prop :=
  exists volume_value tp_value sl_value,
    py_getitem bi signal_data "symbol" = Ok symbol /\
    py_getitem bi signal_data "volume" = Ok volume_value /\
    py_float bi volume_value = Ok volume /\
    py_getitem bi signal_data "action" = Ok action /\
    py_getitem bi signal_data "tp" = Ok tp_value /\
    py_float bi tp_value = Ok tp /\
    py_getitem bi signal_data "sl" = Ok sl_value /\
    py_float bi sl_value = Ok sl.

(** The symbol is visible when the terminal says so, or once the terminal
    has accepted to select it. *)
Definition made_visible {T} (mt5 : Terminal T) (symbol : pyval)
  (info : SymbolInfo) (t t' : T) : Prop :=
  (visible info = true /\ t' = t) \/
  (visible info = false /\ symbol_select mt5 symbol true t = (Returns true, t')).

(** From terminal state [t], the symbol resolves, is visible and has the
    quote [tick]; the terminal is then in state [t']. *)
Definition quote_available {T} (mt5 : Terminal T) (symbol : pyval) (t : T)
  (tick : Tick) (t' : T) : Prop :=
  exists info t2 t3,
    symbol_info mt5 symbol t = (Returns (Some info), t2) /\
    made_visible mt5 symbol info t2 t3 /\
    symbol_info_tick mt5 symbol t3 = (Returns (Some tick), t').

(** ** More readings of a trace *)

(** The symbols the terminal was asked about, in order. *)
Definition symbols_queried (tr : list event) : list pyval :=
  flat_map (fun e =>
              match e with
              | Call_symbol_info s | Call_symbol_select s _
              | Call_symbol_info_tick s => [s]
              | _ => []
              end) tr.

(** The calls of [symbol_select], with their [enable] argument. *)
Definition selections (tr : list event) : list (pyval * bool) :=
  flat_map (fun e =>
              match e with
              | Call_symbol_select s enable => [(s, enable)]
              | _ => []
              end) tr.


(** The value under the key "success" of a printed document. *)
Definition success_of (document : pyval) : option pyval :=
  match document with
  | PDict d => dict_get d "success"
  | _ => None
  end.

(** ** A scripted terminal, to run the script on concrete inputs *)

Module Sample.

(** The answers of a terminal that gives the same answer to a call whenever
    it is made. *)
Record Answers : Type := {
  on_initialize : bool;
  on_last_error : Z * string;
  on_account_info : outcome (option AccountInfo);
  on_symbol_info : pyval -> outcome (option SymbolInfo);
  on_symbol_select : pyval -> outcome bool;
  on_symbol_info_tick : pyval -> outcome (option Tick);
  on_order_send : TradeRequest -> outcome (option OrderSendResult)
}.

(** Its state is whether a session is open. *)
Definition terminal (a : Answers) : Terminal bool := {|
  initialize := fun _ => (on_initialize a, on_initialize a);
  last_error := fun t => (on_last_error a, t);
  shutdown := fun _ => false;
  account_info := fun t => (on_account_info a, t);
  symbol_info := fun s t => (on_symbol_info a s, t);
  symbol_select := fun s _ t => (on_symbol_select a s, t);
  symbol_info_tick := fun s t => (on_symbol_info_tick a s, t);
  order_send := fun r t => (on_order_send a r, t)
|}.

(** 0.1, 1.2, 1.1, 1.085, 1.0851 and 10000.0 as binary64 numbers. *)
Definition f0_1 : pyfloat := S754_finite false 7205759403792794 (-56).
Definition f1_2 : pyfloat := S754_finite false 5404319552844595 (-52).
Definition f1_1 : pyfloat := S754_finite false 4953959590107546 (-52).
Definition f1_085 : pyfloat := S754_finite false 4886405595696988 (-52).
Definition f1_0851 : pyfloat := S754_finite false 4886855955659725 (-52).
Definition f10000 : pyfloat := S754_finite false 5497558138880000 (-39).

(** An excerpt of the interpreter's library: [float] on the strings the
    examples pass, [repr] on [None], Booleans and strings without quotes or
    escapes. *)
Definition builtins : Builtins := {|
  float_of_str := fun s =>
    if String.eqb s "0.1" then Some f0_1 else None;
  py_repr := fun v =>
    match v with
    | PNone => "None"
    | PBool true => "True"
    | PBool false => "False"
    | PStr s => "'" ++ s ++ "'"
    | _ => ""
    end
|}.


Definition account : AccountInfo :=
  {| login := 5012345; server := "Demo-Server";
     balance := f10000; equity := f10000 |}.

Definition quote : Tick := {| ask := f1_0851; bid := f1_085 |}.

Definition knows_EURUSD (visible_now : bool) (s : pyval)
  : outcome (option SymbolInfo) :=
  Returns (if py_eq_str s "EURUSD"
           then Some {| visible := visible_now |} else None).

Definition fill (r : TradeRequest) : outcome (option OrderSendResult) :=
  Returns (Some {| retcode := 10009; order := 123456;
                   volume := rq_volume r; price := rq_price r;
                   comment := "Request executed" |}).

Definition reject (r : TradeRequest) : outcome (option OrderSendResult) :=
  Returns (Some {| retcode := 10016; order := 0;
                   volume := rq_volume r; price := rq_price r;
                   comment := "Invalid stops" |}).

(** A terminal logged into [account] that quotes EURUSD and fills orders. *)
Definition demo : Answers := {|
  on_initialize := true;
  on_last_error := (1, "Success");
  on_account_info := Returns (Some account);
  on_symbol_info := knows_EURUSD true;
  on_symbol_select := fun _ => Returns true;
  on_symbol_info_tick := fun _ => Returns (Some quote);
  on_order_send := fill
|}.

(** The same terminal when it rejects every order. *)
Definition rejecting : Answers := {|
  on_initialize := true;
  on_last_error := (1, "Success");
  on_account_info := Returns (Some account);
  on_symbol_info := knows_EURUSD true;
  on_symbol_select := fun _ => Returns true;
  on_symbol_info_tick := fun _ => Returns (Some quote);
  on_order_send := reject
|}.

(** A terminal whose account query fails. *)
Definition broken_account : Answers := {|
  on_initialize := true;
  on_last_error := (1, "Success");
  on_account_info := Fails TerminalFailure "IPC recv failed";
  on_symbol_info := knows_EURUSD true;
  on_symbol_select := fun _ => Returns true;
  on_symbol_info_tick := fun _ => Returns (Some quote);
  on_order_send := fill
|}.

(** A terminal that cannot be reached. *)
Definition unreachable : Answers := {|
  on_initialize := false;
  on_last_error := (-10003, "IPC initialize failed");
  on_account_info := Returns None;
  on_symbol_info := fun _ => Returns None;
  on_symbol_select := fun _ => Returns false;
  on_symbol_info_tick := fun _ => Returns None;
  on_order_send := fun _ => Returns None
|}.

Definition signal (volume action : pyval) : pyval :=
  PDict [("symbol", PStr "EURUSD"); ("volume", volume); ("action", action);
         ("tp", PFloat f1_2); ("sl", PFloat f1_1)].

(** A signal without [tp] and without [sl]. *)
Definition signal_without_tp : list (string * pyval) :=
  [("symbol", PStr "EURUSD"); ("volume", PFloat f0_1); ("action", PStr "BUY")].

(** The terminal when EURUSD is not in its Market Watch and can be
    selected. *)
Definition hidden : Answers := {|
  on_initialize := true;
  on_last_error := (1, "Success");
  on_account_info := Returns (Some account);
  on_symbol_info := knows_EURUSD false;
  on_symbol_select := fun _ => Returns true;
  on_symbol_info_tick := fun _ => Returns (Some quote);
  on_order_send := fill
|}.

(** The same when the selection is refused. *)
Definition unselectable : Answers := {|
  on_initialize := true;
  on_last_error := (1, "Success");
  on_account_info := Returns (Some account);
  on_symbol_info := knows_EURUSD false;
  on_symbol_select := fun _ => Returns false;
  on_symbol_info_tick := fun _ => Returns (Some quote);
  on_order_send := fill
|}.

(** A terminal without a quote. *)
Definition unquoted : Answers := {|
  on_initialize := true;
  on_last_error := (1, "Success");
  on_account_info := Returns (Some account);
  on_symbol_info := knows_EURUSD true;
  on_symbol_select := fun _ => Returns true;
  on_symbol_info_tick := fun _ => Returns None;
  on_order_send := fill
|}.

(** A terminal whose [order_send] returns [None]. *)
Definition silent : Answers := {|
  on_initialize := true;
  on_last_error := (1, "Success");
  on_account_info := Returns (Some account);
  on_symbol_info := knows_EURUSD true;
  on_symbol_select := fun _ => Returns true;
  on_symbol_info_tick := fun _ => Returns (Some quote);
  on_order_send := fun _ => Returns None
|}.


(** A terminal with no account logged in. *)
Definition logged_out : Answers := {|
  on_initialize := true;
  on_last_error := (1, "Success");
  on_account_info := Returns None;
  on_symbol_info := knows_EURUSD true;
  on_symbol_select := fun _ => Returns true;
  on_symbol_info_tick := fun _ => Returns (Some quote);
  on_order_send := fill
|}.

(** The fields of a signal for [symbol], and the same signal with a field
    the script does not know. *)
Definition fields_for (symbol : string) (volume : pyval)
  : list (string * pyval) :=
  [("symbol", PStr symbol); ("volume", volume); ("action", PStr "BUY");
   ("tp", PFloat f1_2); ("sl", PFloat f1_1)].

(** What [fill] answers to a buy of 0.1 lot at the ask price of [quote]. *)
Definition filled : OrderSendResult :=
  {| retcode := 10009; order := 123456; volume := f0_1; price := f1_0851;
     comment := "Request executed" |}.

Definition annotated_fields : list (string * pyval) :=
  ("note", PStr "from the orchestrator") :: fields_for "EURUSD" (PFloat f0_1).

End Sample.

(** ** Running the script symbolically *)

(** The monad and the calls of the binding, unfolded. *)
Ltac unfold_script :=
  cbv [run_process run_command_line run_check_connection run_execute_trade
       start main dunder_main parse_args
       json_loads_stdin check_connection execute_trade execute_trade_body
       send_order initialize_mt5 validate_required_fields required_fields
       require_field for_each
       try_except bind ret raise lift sys_exit print log of_outcome
       mt5_initialize mt5_last_error mt5_shutdown mt5_account_info
       mt5_symbol_info mt5_symbol_select mt5_symbol_info_tick mt5_order_send
       term trace exit_status fst snd negb orb andb is_some is_ok decoded
       isinstance_ValueError isinstance_JSONDecodeError].

(** One step: case analysis on a value that a [match] waits for and that
    is not itself a [match]. *)
Ltac split_match :=
  match goal with
  | |- context [match ?x with _ => _ end] =>
      lazymatch x with
      | context [match _ with _ => _ end] => fail
      | _ => destruct x eqn:?
      end
  end.

Ltac run_script := unfold_script; repeat (split_match; unfold_script).

(** Rewrite with a known answer, then go on running. *)
Ltac answer H := rewrite H; unfold_script.

(** ** Traces *)

Lemma printed_app (tr tr' : list event) :
  printed (tr ++ tr') = (printed tr ++ printed tr')%list.
Proof. apply flat_map_app. Qed.

Lemma orders_sent_app (tr tr' : list event) :
  orders_sent (tr ++ tr') = (orders_sent tr ++ orders_sent tr')%list.
Proof. apply flat_map_app. Qed.

Lemma shutdown_called_app (tr tr' : list event) :
  shutdown_called (tr ++ tr') = shutdown_called tr || shutdown_called tr'.
Proof. apply existsb_app. Qed.

(** ** Subscripts and membership *)

Lemma getitem_contains (bi : Builtins) (container : pyval) (key : string)
  (v : pyval) :
  py_getitem bi container key = Ok v -> py_contains key container = Ok true.
Proof.
  destruct container; simpl; try discriminate.
  destruct (dict_get d key); [reflexivity | discriminate].
Qed.

Lemma contains_dict (d : list (string * pyval)) (key : string) :
  dict_get d key <> None -> py_contains key (PDict d) = Ok true.
Proof.
  intros H. simpl. destruct (dict_get d key); [reflexivity | contradiction].
Qed.

Section Properties.

Context {T : Type}.
Variable mt5 : Terminal T.
Variable bi : Builtins.

(** *** The loop over the required fields *)

Lemma for_each_all_pass (signal_data : pyval) (fields : list string)
  (w : world T) :
  (forall f, In f fields -> py_contains f signal_data = Ok true) ->
  for_each fields (require_field signal_data) w = (Ret tt, w).
Proof.
  induction fields as [| f rest IH]; intros Hall; [reflexivity |].
  cbn [for_each]. unfold bind at 1. unfold require_field at 1.
  unfold bind, lift. rewrite (Hall f (or_introl eq_refl)). cbn.
  apply IH. intros g Hg. apply Hall. right. exact Hg.
Qed.

Lemma for_each_first_missing (signal_data : pyval) (pre post : list string)
  (name : string) (w : world T) :
  (forall f, In f pre -> py_contains f signal_data = Ok true) ->
  py_contains name signal_data = Ok false ->
  for_each (pre ++ name :: post)%list (require_field signal_data) w =
  (Raise (Exc ValueError ("Missing required field: " ++ name)), w).
Proof.
  intros Hpre Hname.
  induction pre as [| f rest IH]; cbn [app for_each].
  - unfold bind at 1. unfold require_field at 1. unfold bind, lift.
    rewrite Hname. reflexivity.
  - unfold bind at 1. unfold require_field at 1. unfold bind, lift.
    rewrite (Hpre f (or_introl eq_refl)). cbn.
    apply IH. intros g Hg. apply Hpre. right. exact Hg.
Qed.

(** *** The path to the submission *)

(** A validated signal with a quote brings [execute_trade] to [send_order]
    with the request built from them; nothing was printed, no order sent and
    the session not closed before. *)
Lemma execute_trade_reaches_submission (signal_data symbol action : pyval)
  (volume tp sl : pyfloat) (tick : Tick) (t0 t1 t4 : T) :
  initialize mt5 t0 = (true, t1) ->
  signal_fields bi signal_data symbol volume action tp sl ->
  quote_available mt5 symbol t1 tick t4 ->
  exists tr,
    execute_trade_body mt5 bi signal_data (start t0) =
    send_order mt5 (build_request symbol volume action tp sl tick)
      {| term := t4; trace := tr |} /\
    printed tr = [] /\ orders_sent tr = [] /\ shutdown_called tr = false.
Proof.
  intros Hinit (vv & vt & vs & Hsym & Hvol & Hfv & Hact & Htp & Hft & Hsl & Hfs)
         (info & t2 & t3 & Hinfo & Hvis & Htick).
  pose proof (getitem_contains _ _ _ _ Hsym) as Csym.
  pose proof (getitem_contains _ _ _ _ Hvol) as Cvol.
  pose proof (getitem_contains _ _ _ _ Hact) as Cact.
  pose proof (getitem_contains _ _ _ _ Htp) as Ctp.
  pose proof (getitem_contains _ _ _ _ Hsl) as Csl.
  destruct Hvis as [[Hv ->] | [Hv Hsel]].
  - eexists. split.
    + unfold_script. answer Hinit.
      answer Csym. answer Cvol. answer Cact. answer Ctp. answer Csl.
      answer Hsym. answer Hvol. answer Hfv. answer Hact.
      answer Htp. answer Hft. answer Hsl. answer Hfs.
      answer Hinfo. answer Hv. answer Htick. reflexivity.
    + cbn. auto.
  - eexists. split.
    + unfold_script. answer Hinit.
      answer Csym. answer Cvol. answer Cact. answer Ctp. answer Csl.
      answer Hsym. answer Hvol. answer Hfv. answer Hact.
      answer Htp. answer Hft. answer Hsl. answer Hfs.
      answer Hinfo. answer Hv. answer Hsel. answer Htick. reflexivity.
    + cbn. auto.
Qed.

(** Such a run sends one order: the request built from the signal and the
    quote. *)
Lemma execute_trade_sends_built_request (signal_data symbol action : pyval)
  (volume tp sl : pyfloat) (tick : Tick) (t0 t1 t4 : T) :
  initialize mt5 t0 = (true, t1) ->
  signal_fields bi signal_data symbol volume action tp sl ->
  quote_available mt5 symbol t1 tick t4 ->
  orders_sent (trace (snd (run_execute_trade mt5 bi signal_data t0))) =
  [build_request symbol volume action tp sl tick].
Proof.
  intros Hinit Hsig Hq.
  destruct (execute_trade_reaches_submission _ _ _ _ _ _ _ _ _ _ Hinit Hsig Hq)
    as (tr & Hbody & _ & Ho & _).
  unfold run_execute_trade, execute_trade, try_except. rewrite Hbody.
  run_script; rewrite ?orders_sent_app, Ho; reflexivity.
Qed.

Lemma eq_str_BUY (action : pyval) :
  py_eq_str action "BUY" = true <-> action = PStr "BUY".
Proof.
  destruct action; simpl; try (split; [discriminate | intros H; inversion H]).
  rewrite String.eqb_eq. split; [intros -> | intros H; inversion H]; reflexivity.
Qed.

(** C1: when the session opens, the signal has its five fields with
    [volume], [tp] and [sl] coercible, and the symbol resolves, is visible
    and has a quote, the one request passed to [order_send] carries the
    signal's symbol, the coerced volume, sl and tp, the price selected from
    the quote, and the constants: deviation 10, magic 202504, comment
    "Teaka AutoExec", time GTC and filling IOC (with action DEAL). *)
Theorem execute_trade_request (signal_data symbol action : pyval)
  (volume tp sl : pyfloat) (tick : Tick) (t0 t1 t4 : T) :
  initialize mt5 t0 = (true, t1) ->
  signal_fields bi signal_data symbol volume action tp sl ->
  quote_available mt5 symbol t1 tick t4 ->
  orders_sent (trace (snd (run_execute_trade mt5 bi signal_data t0))) =
  [ {| rq_action := TRADE_ACTION_DEAL;
       rq_symbol := symbol;
       rq_volume := volume;
       rq_type := if py_eq_str action "BUY"
                  then ORDER_TYPE_BUY else ORDER_TYPE_SELL;
       rq_price := if py_eq_str action "BUY" then ask tick else bid tick;
       rq_sl := sl;
       rq_tp := tp;
       rq_deviation := 10;
       rq_magic := 202504;
       rq_comment := "Teaka AutoExec";
       rq_type_time := ORDER_TIME_GTC;
       rq_type_filling := ORDER_FILLING_IOC |} ].
Proof.
  intros Hinit Hsig Hq.
  rewrite (execute_trade_sends_built_request _ _ _ _ _ _ _ _ _ _ Hinit Hsig Hq).
  reflexivity.
Qed.

(** C2: on every run that reaches the construction of the order, the
    action "BUY" gives a buy order at the ask price of the quote, and any
    other action, whatever it is, a sell order at the bid price. *)
Theorem order_side_and_price (signal_data symbol action : pyval)
  (volume tp sl : pyfloat) (tick : Tick) (t0 t1 t4 : T) :
  initialize mt5 t0 = (true, t1) ->
  signal_fields bi signal_data symbol volume action tp sl ->
  quote_available mt5 symbol t1 tick t4 ->
  exists request,
    orders_sent (trace (snd (run_execute_trade mt5 bi signal_data t0))) =
    [request] /\
    (action = PStr "BUY" ->
     rq_type request = ORDER_TYPE_BUY /\ rq_price request = ask tick) /\
    (action <> PStr "BUY" ->
     rq_type request = ORDER_TYPE_SELL /\ rq_price request = bid tick).
Proof.
  intros Hinit Hsig Hq.
  exists (build_request symbol volume action tp sl tick).
  split; [exact (execute_trade_sends_built_request _ _ _ _ _ _ _ _ _ _
                   Hinit Hsig Hq) |].
  unfold build_request; cbn [rq_type rq_price].
  destruct (py_eq_str action "BUY") eqn:E.
  - apply eq_str_BUY in E. split; [auto | intros H; contradiction].
  - split; [| auto]. intros H. apply eq_str_BUY in H. congruence.
Qed.

(** C5, amended: when the terminal returns a result whose status code is
    not [TRADE_RETCODE_DONE], the run prints one document, of type
    "EXECUTION_ERROR", whose message is "Order failed: " followed by the
    comment of the terminal; the session is closed and the script runs to
    its end. *)
Theorem rejected_order_reported (signal_data symbol action : pyval)
  (volume tp sl : pyfloat) (tick : Tick) (t0 t1 t4 t5 : T)
  (r : OrderSendResult) :
  initialize mt5 t0 = (true, t1) ->
  signal_fields bi signal_data symbol volume action tp sl ->
  quote_available mt5 symbol t1 tick t4 ->
  order_send mt5 (build_request symbol volume action tp sl tick) t4 =
  (Returns (Some r), t5) ->
  retcode r <> TRADE_RETCODE_DONE ->
  let run := run_execute_trade mt5 bi signal_data t0 in
  fst run = Ret tt /\
  printed (trace (snd run)) =
  [PDict [("success", PBool false);
          ("error", PDict [("type", PStr "EXECUTION_ERROR");
                           ("message",
                            PStr ("Order failed: " ++ comment r))])]] /\
  shutdown_called (trace (snd run)) = true.
Proof.
  intros Hinit Hsig Hq Hsend Hcode.
  destruct (execute_trade_reaches_submission _ _ _ _ _ _ _ _ _ _ Hinit Hsig Hq)
    as (tr & Hbody & Hp & _ & _).
  apply Z.eqb_neq in Hcode.
  unfold run_execute_trade, execute_trade, try_except. rewrite Hbody.
  unfold_script. answer Hsend. answer Hcode.
  rewrite !printed_app, Hp, !shutdown_called_app, !orb_true_r.
  repeat split.
Qed.

(** *** Validation *)

(** C3: with the session open, a signal that lacks [name], every field
    checked before [name] being present, makes the run print the one
    document [{success: false, error: {type: "VALIDATION_ERROR", message:
    "Missing required field: <name>"}}]; nothing else is asked of the
    terminal but to close the session. *)
Theorem missing_field_reported (d : list (string * pyval))
  (pre post : list string) (name : string) (t0 t1 : T) :
  initialize mt5 t0 = (true, t1) ->
  required_fields = (pre ++ name :: post)%list ->
  (forall f, In f pre -> dict_get d f <> None) ->
  dict_get d name = None ->
  run_execute_trade mt5 bi (PDict d) t0 =
  (Ret tt,
   {| term := shutdown mt5 t1;
      trace :=
        [Call_initialize;
         Print (PDict [("success", PBool false);
                       ("error",
                        PDict [("type", PStr "VALIDATION_ERROR");
                               ("message",
                                PStr ("Missing required field: " ++ name))])]);
         Call_shutdown] |}).
Proof.
  intros Hinit Hfields Hpre Hname.
  unfold run_execute_trade, execute_trade, execute_trade_body, try_except.
  unfold bind at 1. unfold initialize_mt5, bind at 1, mt5_initialize.
  cbn [start term]. rewrite Hinit. cbn [negb ret].
  unfold bind at 1. unfold validate_required_fields. rewrite Hfields.
  rewrite for_each_first_missing.
  - reflexivity.
  - intros f Hf. apply contains_dict, Hpre, Hf.
  - simpl. rewrite Hname. reflexivity.
Qed.

(** A [volume] that is a string [float] rejects is reported as a validation
    error, with the message of the interpreter. *)
Lemma unparsable_volume_reported (d : list (string * pyval)) (s : string)
  (t0 t1 : T) :
  initialize mt5 t0 = (true, t1) ->
  (forall f, In f required_fields -> dict_get d f <> None) ->
  dict_get d "volume" = Some (PStr s) ->
  float_of_str bi s = None ->
  printed (trace (snd (run_execute_trade mt5 bi (PDict d) t0))) =
  [error_document "VALIDATION_ERROR"
     ("could not convert string to float: " ++ py_repr bi (PStr s))].
Proof.
  intros Hinit Hall Hvol Hparse.
  destruct (dict_get d "symbol") as [symbol |] eqn:Hsym;
    [| exfalso; apply (Hall "symbol"); [cbn; auto | exact Hsym]].
  unfold run_execute_trade, execute_trade, execute_trade_body, try_except.
  unfold bind at 1. unfold initialize_mt5, bind at 1, mt5_initialize.
  cbn [start term]. rewrite Hinit. cbn [negb ret].
  unfold bind at 1. unfold validate_required_fields.
  rewrite for_each_all_pass
    by (intros f Hf; apply contains_dict, Hall, Hf).
  unfold bind, lift. cbn [py_getitem]. rewrite Hsym, Hvol.
  cbn [py_float]. rewrite Hparse. reflexivity.
Qed.

(** C4, what the code does: a [volume] that is [null], a list or an object
    makes [float] raise [TypeError], which the script reports as an
    "EXECUTION_ERROR", not as a "VALIDATION_ERROR". *)
Theorem untyped_volume_reported_as_execution_error
  (d : list (string * pyval)) (v : pyval) (t0 t1 : T) :
  initialize mt5 t0 = (true, t1) ->
  (forall f, In f required_fields -> dict_get d f <> None) ->
  dict_get d "volume" = Some v ->
  v = PNone \/ (exists l, v = PList l) \/ (exists o, v = PDict o) ->
  printed (trace (snd (run_execute_trade mt5 bi (PDict d) t0))) =
  [PDict [("success", PBool false);
          ("error",
           PDict [("type", PStr "EXECUTION_ERROR");
                  ("message",
                   PStr ("float() argument must be a string or a real number, not '"
                         ++ type_name v ++ "'"))])]].
Proof.
  intros Hinit Hall Hvol Hv.
  destruct (dict_get d "symbol") as [symbol |] eqn:Hsym;
    [| exfalso; apply (Hall "symbol"); [cbn; auto | exact Hsym]].
  unfold run_execute_trade, execute_trade, execute_trade_body, try_except.
  unfold bind at 1. unfold initialize_mt5, bind at 1, mt5_initialize.
  cbn [start term]. rewrite Hinit. cbn [negb ret].
  unfold bind at 1. unfold validate_required_fields.
  rewrite for_each_all_pass
    by (intros f Hf; apply contains_dict, Hall, Hf).
  unfold bind, lift. cbn [py_getitem]. rewrite Hsym, Hvol.
  destruct Hv as [-> | [[l ->] | [o ->]]]; reflexivity.
Qed.

(** *** Orders *)


(** *** The session *)

(** [execute_trade] closes the session on every path, and the call that
    closes it is the last thing the run does. *)
Lemma execute_trade_closes_session (signal_data : pyval) (t : T) :
  last (trace (snd (run_execute_trade mt5 bi signal_data t))) Call_initialize
  = Call_shutdown.
Proof. run_script; reflexivity. Qed.

(** [check_connection] closes the session when the account query returns,
    and when the session could not be opened. *)
Lemma check_connection_closes_session (t : T) :
  (forall c msg t',
      account_info mt5 (snd (initialize mt5 t)) <> (Fails c msg, t')) ->
  last (trace (snd (run_check_connection mt5 t))) Call_initialize
  = Call_shutdown.
Proof.
  intros Hreturns. revert Hreturns.
  run_script; intros Hreturns; try reflexivity.
  exfalso. eapply Hreturns. reflexivity.
Qed.

(** C7, where the code departs from it: when the account query fails,
    [check_connection] prints the connection error and returns without a
    call to [shutdown]; the process ends, with status 0, on a session left
    open. *)
Theorem failed_check_leaves_session_open (stdin : evaluated pyval)
  (c : exc_class) (msg : string) (t0 t1 t2 : T) :
  initialize mt5 t0 = (true, t1) ->
  account_info mt5 t1 = (Fails c msg, t2) ->
  run_process mt5 bi true stdin t0 =
  (0, [Call_initialize; Call_account_info; Print (connection_error msg)]) /\
  shutdown_called (snd (run_process mt5 bi true stdin t0)) = false.
Proof.
  intros Hinit Hacc.
  assert (run_process mt5 bi true stdin t0 =
          (0, [Call_initialize; Call_account_info;
               Print (connection_error msg)])) as E.
  { unfold_script. answer Hinit. answer Hacc. reflexivity. }
  rewrite E. split; reflexivity.
Qed.

(** *** Exit status *)

(** C6, amended: a command line that [argparse] does not accept ends the
    process with the status of [argparse], 2 after a usage error and 0
    after the help text.  When the command line is accepted and the flag
    is given, or reading standard input gives a JSON value or raises
    [JSONDecodeError], the process exits with status 1 exactly when it
    tries to open the session (the flag is given, or standard input
    parsed) and [initialize] fails, and with status 0 otherwise. *)
Theorem exit_status_by_path (command_line : parsed_arguments)
  (stdin : evaluated pyval) (t : T) :
  let status := fst (run_command_line mt5 bi command_line stdin t) in
  match command_line with
  | Usage_error => status = 2
  | Help _ => status = 0
  | Namespace flag =>
      flag || decoded stdin = true ->
      status =
      if (flag || is_ok stdin) && negb (fst (initialize mt5 t)) then 1 else 0
  end.
Proof.
  destruct command_line as [flag | | text]; [| reflexivity | reflexivity].
  run_script; intros Hread; try reflexivity; discriminate Hread.
Qed.

(** X21: when reading or parsing standard input raises an exception that is
    not a [JSONDecodeError], nothing catches it: the process ends with status
    1, having printed nothing and asked nothing of the terminal. *)
Theorem unread_input_is_fatal (c : exc_class) (msg : string) (t : T) :
  isinstance_JSONDecodeError c = false ->
  run_process mt5 bi false (Err c msg) t = (1, []).
Proof.
  intros Hc. unfold_script. destruct c; try discriminate Hc; reflexivity.
Qed.

(** *** The connection checker *)

(** C8: once the session is open, [check_connection] prints exactly one
    document: the account's login, server, balance and equity with
    [success: true] when the query returns an account, [{success: false,
    account_info: null}] when it returns none, and a "CONNECTION_ERROR"
    carrying the failure's message when the query fails. *)
Theorem check_connection_output (t0 t1 : T) :
  initialize mt5 t0 = (true, t1) ->
  printed (trace (snd (run_check_connection mt5 t0))) =
  [match fst (account_info mt5 t1) with
   | Returns (Some a) =>
       PDict [("success", PBool true);
              ("account_info", PDict [("login", PInt (login a));
                                      ("server", PStr (server a));
                                      ("balance", PFloat (balance a));
                                      ("equity", PFloat (equity a))])]
   | Returns None =>
       PDict [("success", PBool false); ("account_info", PNone)]
   | Fails _ msg =>
       PDict [("success", PBool false);
              ("error", PDict [("message", PStr msg);
                               ("type", PStr "CONNECTION_ERROR")])]
   end].
Proof.
  intros Hinit. unfold_script. answer Hinit.
  destruct (account_info mt5 t1) as [[[a |] | msg] t2]; reflexivity.
Qed.

End Properties.

(** The [account_info] values [check_connection] prints are determined by
    what [initialize] and the account query answer, on any two terminals. *)
Lemma check_connection_determined {T1 T2 : Type} (m1 : Terminal T1)
  (m2 : Terminal T2) (s1 : T1) (s2 : T2) :
  fst (initialize m1 s1) = fst (initialize m2 s2) ->
  fst (account_info m1 (snd (initialize m1 s1))) =
  fst (account_info m2 (snd (initialize m2 s2))) ->
  map account_info_of (printed (trace (snd (run_check_connection m1 s1)))) =
  map account_info_of (printed (trace (snd (run_check_connection m2 s2)))).
Proof.
  unfold_script.
  destruct (initialize m1 s1) as [ok1 u1], (initialize m2 s2) as [ok2 u2].
  intros ->. destruct ok2.
  - destruct (account_info m1 u1) as [o1 v1], (account_info m2 u2) as [o2 v2].
    intros ->. destruct o2 as [[a |] | msg]; reflexivity.
  - intros _.
    destruct (last_error m1 u1) as [e1 v1], (last_error m2 u2) as [e2 v2].
    reflexivity.
Qed.

Section Idempotence.

Context {T : Type}.
Variable mt5 : Terminal T.

(** C9: run [check_connection] twice, the second time on the terminal as
    the first run left it; if the terminal answers the second run as it
    answered the first (the session opens or not, the account query gives
    the same account), both runs print the same [account_info] values. *)
Theorem check_connection_idempotent (t : T) :
  let first := run_check_connection mt5 t in
  let t' := term (snd first) in
  let second := run_check_connection mt5 t' in
  fst (initialize mt5 t') = fst (initialize mt5 t) ->
  fst (account_info mt5 (snd (initialize mt5 t'))) =
  fst (account_info mt5 (snd (initialize mt5 t))) ->
  map account_info_of (printed (trace (snd second))) =
  map account_info_of (printed (trace (snd first))).
Proof.
  intros first t' second Hinit Hacc.
  exact (check_connection_determined mt5 mt5 t' t Hinit Hacc).
Qed.

End Idempotence.

(** ** The paths of the script, one by one *)

(** The five fields read and coerced: run the script up to the first query
    about the symbol. *)
Ltac pass_fields Hinit Hsig :=
  let vv := fresh "vv" in
  let vt := fresh "vt" in
  let vs := fresh "vs" in
  let Hsym := fresh "Hsym" in
  let Hvol := fresh "Hvol" in
  let Hfv := fresh "Hfv" in
  let Hact := fresh "Hact" in
  let Htp := fresh "Htp" in
  let Hft := fresh "Hft" in
  let Hsl := fresh "Hsl" in
  let Hfs := fresh "Hfs" in
  destruct Hsig as
    (vv & vt & vs & Hsym & Hvol & Hfv & Hact & Htp & Hft & Hsl & Hfs);
  unfold_script; answer Hinit;
  rewrite (getitem_contains _ _ _ _ Hsym); unfold_script;
  rewrite (getitem_contains _ _ _ _ Hvol); unfold_script;
  rewrite (getitem_contains _ _ _ _ Hact); unfold_script;
  rewrite (getitem_contains _ _ _ _ Htp); unfold_script;
  rewrite (getitem_contains _ _ _ _ Hsl); unfold_script;
  answer Hsym; answer Hvol; answer Hfv; answer Hact;
  answer Htp; answer Hft; answer Hsl; answer Hfs.

Lemma last_snoc (tr : list event) (e d : event) : last (tr ++ [e]) d = e.
Proof. apply last_last. Qed.

Section Paths.

Context {T : Type}.
Variable mt5 : Terminal T.
Variable bi : Builtins.

(** X1: when the terminal returns a result with the status
    [TRADE_RETCODE_DONE], the run prints the one document [{success: true,
    order: {ticket, volume, price, comment}}] made of the result's order,
    volume, price and comment, then closes the session, and the script runs
    to its end. *)
Theorem filled_order_reported (signal_data symbol action : pyval)
  (vol tp sl : pyfloat) (tick : Tick) (t0 t1 t4 t5 : T)
  (r : OrderSendResult) :
  initialize mt5 t0 = (true, t1) ->
  signal_fields bi signal_data symbol vol action tp sl ->
  quote_available mt5 symbol t1 tick t4 ->
  order_send mt5 (build_request symbol vol action tp sl tick) t4 =
  (Returns (Some r), t5) ->
  retcode r = TRADE_RETCODE_DONE ->
  let run := run_execute_trade mt5 bi signal_data t0 in
  fst run = Ret tt /\
  printed (trace (snd run)) =
  [PDict [("success", PBool true);
          ("order", PDict [("ticket", PInt (order r));
                           ("volume", PFloat (volume r));
                           ("price", PFloat (price r));
                           ("comment", PStr (comment r))])]] /\
  term (snd run) = shutdown mt5 t5 /\
  last (trace (snd run)) Call_initialize = Call_shutdown.
Proof.
  intros Hinit Hsig Hq Hsend Hcode.
  destruct (execute_trade_reaches_submission _ _ _ _ _ _ _ _ _ _ _ _
              Hinit Hsig Hq) as (tr & Hbody & Hp & _ & _).
  apply Z.eqb_eq in Hcode.
  unfold run_execute_trade, execute_trade, try_except. rewrite Hbody.
  unfold_script. answer Hsend. answer Hcode.
  rewrite !printed_app, Hp, last_snoc.
  repeat split.
Qed.

(** X2: a symbol the terminal does not know is reported as a
    "VALIDATION_ERROR" with the message "Symbol <symbol> not found"; the
    terminal is asked nothing more than to close the session. *)
Theorem unknown_symbol_reported (signal_data symbol action : pyval)
  (volume tp sl : pyfloat) (t0 t1 t2 : T) :
  initialize mt5 t0 = (true, t1) ->
  signal_fields bi signal_data symbol volume action tp sl ->
  symbol_info mt5 symbol t1 = (Returns None, t2) ->
  run_execute_trade mt5 bi signal_data t0 =
  (Ret tt,
   {| term := shutdown mt5 t2;
      trace :=
        [Call_initialize; Call_symbol_info symbol;
         Print (PDict [("success", PBool false);
                       ("error",
                        PDict [("type", PStr "VALIDATION_ERROR");
                               ("message",
                                PStr ("Symbol " ++ py_str bi symbol
                                      ++ " not found"))])]);
         Call_shutdown] |}).
Proof.
  intros Hinit Hsig Hinfo.
  pass_fields Hinit Hsig. answer Hinfo. reflexivity.
Qed.

(** X3: a symbol that is not visible and that the terminal refuses to
    select is reported as a "VALIDATION_ERROR" with the message "Symbol
    <symbol> selection failed"; no quote is asked for and no order sent. *)
Theorem selection_failure_reported (signal_data symbol action : pyval)
  (volume tp sl : pyfloat) (info : SymbolInfo) (t0 t1 t2 t3 : T) :
  initialize mt5 t0 = (true, t1) ->
  signal_fields bi signal_data symbol volume action tp sl ->
  symbol_info mt5 symbol t1 = (Returns (Some info), t2) ->
  visible info = false ->
  symbol_select mt5 symbol true t2 = (Returns false, t3) ->
  run_execute_trade mt5 bi signal_data t0 =
  (Ret tt,
   {| term := shutdown mt5 t3;
      trace :=
        [Call_initialize; Call_symbol_info symbol;
         Call_symbol_select symbol true;
         Print (PDict [("success", PBool false);
                       ("error",
                        PDict [("type", PStr "VALIDATION_ERROR");
                               ("message",
                                PStr ("Symbol " ++ py_str bi symbol
                                      ++ " selection failed"))])]);
         Call_shutdown] |}).
Proof.
  intros Hinit Hsig Hinfo Hvis Hsel.
  pass_fields Hinit Hsig. answer Hinfo. answer Hvis. answer Hsel.
  reflexivity.
Qed.

(** X4: when the symbol is visible but the terminal has no quote for it,
    the run reports a "VALIDATION_ERROR" with the message "Failed to get
    price for <symbol>", sends no order and closes the session. *)
Theorem missing_quote_reported (signal_data symbol action : pyval)
  (volume tp sl : pyfloat) (info : SymbolInfo) (t0 t1 t2 t3 t4 : T) :
  initialize mt5 t0 = (true, t1) ->
  signal_fields bi signal_data symbol volume action tp sl ->
  symbol_info mt5 symbol t1 = (Returns (Some info), t2) ->
  made_visible mt5 symbol info t2 t3 ->
  symbol_info_tick mt5 symbol t3 = (Returns None, t4) ->
  let run := run_execute_trade mt5 bi signal_data t0 in
  fst run = Ret tt /\
  printed (trace (snd run)) =
  [PDict [("success", PBool false);
          ("error",
           PDict [("type", PStr "VALIDATION_ERROR");
                  ("message",
                   PStr ("Failed to get price for " ++ py_str bi symbol))])]] /\
  orders_sent (trace (snd run)) = [] /\
  term (snd run) = shutdown mt5 t4 /\
  last (trace (snd run)) Call_initialize = Call_shutdown.
Proof.
  intros Hinit Hsig Hinfo Hvis Htick.
  destruct Hvis as [[Hv ->] | [Hv Hsel]].
  - pass_fields Hinit Hsig. answer Hinfo. answer Hv. answer Htick.
    repeat split.
  - pass_fields Hinit Hsig. answer Hinfo. answer Hv. answer Hsel.
    answer Htick. repeat split.
Qed.

(** X5: when [order_send] returns [None], reading the status code of the
    result raises [AttributeError]: the run reports an "EXECUTION_ERROR"
    whose message is that of the interpreter, after the request was passed
    to the terminal, and closes the session. *)
Theorem absent_result_reported (signal_data symbol action : pyval)
  (volume tp sl : pyfloat) (tick : Tick) (t0 t1 t4 t5 : T) :
  initialize mt5 t0 = (true, t1) ->
  signal_fields bi signal_data symbol volume action tp sl ->
  quote_available mt5 symbol t1 tick t4 ->
  order_send mt5 (build_request symbol volume action tp sl tick) t4 =
  (Returns None, t5) ->
  let run := run_execute_trade mt5 bi signal_data t0 in
  fst run = Ret tt /\
  printed (trace (snd run)) =
  [PDict [("success", PBool false);
          ("error",
           PDict [("type", PStr "EXECUTION_ERROR");
                  ("message",
                   PStr "'NoneType' object has no attribute 'retcode'")])]] /\
  orders_sent (trace (snd run)) =
  [build_request symbol volume action tp sl tick] /\
  last (trace (snd run)) Call_initialize = Call_shutdown.
Proof.
  intros Hinit Hsig Hq Hsend.
  destruct (execute_trade_reaches_submission _ _ _ _ _ _ _ _ _ _ _ _
              Hinit Hsig Hq) as (tr & Hbody & Hp & Ho & _).
  unfold run_execute_trade, execute_trade, try_except. rewrite Hbody.
  unfold_script. answer Hsend.
  rewrite !printed_app, !orders_sent_app, Hp, Ho, last_snoc.
  repeat split.
Qed.

(** X6: the symbol is selected exactly when the terminal reports it as not
    visible: once, with [enable = True]; a visible symbol is never
    selected. *)
Theorem symbol_selected_only_when_hidden (signal_data symbol action : pyval)
  (volume tp sl : pyfloat) (info : SymbolInfo) (t0 t1 t2 : T) :
  initialize mt5 t0 = (true, t1) ->
  signal_fields bi signal_data symbol volume action tp sl ->
  symbol_info mt5 symbol t1 = (Returns (Some info), t2) ->
  selections (trace (snd (run_execute_trade mt5 bi signal_data t0))) =
  if visible info then [] else [(symbol, true)].
Proof.
  intros Hinit Hsig Hinfo.
  pass_fields Hinit Hsig. answer Hinfo.
  run_script; reflexivity.
Qed.

(** X7: when the session cannot be opened, in either mode, the process
    prints [{success: false, error: {code: <last error>, message: "MT5
    initialization failed"}}], calls [shutdown] and exits with status 1,
    having asked the terminal nothing else. *)
Theorem initialization_failure_reported (flag : bool)
  (stdin : evaluated pyval) (err : Z * string) (t0 t1 t2 : T) :
  flag || is_ok stdin = true ->
  initialize mt5 t0 = (false, t1) ->
  last_error mt5 t1 = (err, t2) ->
  run_process mt5 bi flag stdin t0 =
  (1,
   [Call_initialize; Call_last_error;
    Print (PDict [("success", PBool false);
                  ("error",
                   PDict [("code", PList [PInt (fst err); PStr (snd err)]);
                          ("message", PStr "MT5 initialization failed")])]);
    Call_shutdown]).
Proof.
  intros Hmode Hinit Herr.
  destruct flag; [| destruct stdin as [signal_data | c msg];
                    [| discriminate Hmode]].
  - unfold_script. answer Hinit. answer Herr. reflexivity.
  - unfold_script. answer Hinit. answer Herr. reflexivity.
Qed.

(** X8: without the flag, when parsing standard input raises
    [JSONDecodeError], the process prints the "INVALID_JSON" document and
    exits with status 0 without a single call to the terminal: no session
    is opened. *)
Theorem invalid_json_reported (msg : string) (t : T) :
  run_process mt5 bi false (Err JSONDecodeError msg) t =
  (0,
   [Print (PDict [("success", PBool false);
                  ("error",
                   PDict [("type", PStr "INVALID_JSON");
                          ("message", PStr "Failed to parse signal data")])])]).
Proof. reflexivity. Qed.



(** X11: when the account query returns, [check_connection] prints the
    result, closes the session and returns [True] exactly when the terminal
    returned an account. *)
Theorem check_connection_returns_connected (info : option AccountInfo)
  (t0 t1 t2 : T) :
  initialize mt5 t0 = (true, t1) ->
  account_info mt5 t1 = (Returns info, t2) ->
  run_check_connection mt5 t0 =
  (Ret (match info with Some _ => true | None => false end),
   {| term := shutdown mt5 t2;
      trace := [Call_initialize; Call_account_info;
                Print (connection_result info); Call_shutdown] |}).
Proof.
  intros Hinit Hacc. unfold_script. answer Hinit. answer Hacc. reflexivity.
Qed.

(** X12: with the flag, the process never asks the terminal about a symbol
    and never sends an order, whatever standard input holds. *)
Theorem check_connection_never_trades (stdin : evaluated pyval) (t : T) :
  let tr := snd (run_process mt5 bi true stdin t) in
  symbols_queried tr = [] /\ orders_sent tr = [].
Proof. run_script; split; reflexivity. Qed.

(** X13: every request the script passes to [order_send], on any run, is a
    market deal for the symbol of the signal, buy or sell, with deviation
    10, magic 202504, the comment "Teaka AutoExec", time GTC and filling
    IOC. *)
Theorem every_order_is_a_market_deal (signal_data : pyval) (t : T)
  (request : TradeRequest) :
  In request
     (orders_sent (trace (snd (run_execute_trade mt5 bi signal_data t)))) ->
  py_getitem bi signal_data "symbol" = Ok (rq_symbol request) /\
  rq_action request = TRADE_ACTION_DEAL /\
  (rq_type request = ORDER_TYPE_BUY \/ rq_type request = ORDER_TYPE_SELL) /\
  rq_deviation request = 10 /\
  rq_magic request = 202504 /\
  rq_comment request = "Teaka AutoExec" /\
  rq_type_time request = ORDER_TIME_GTC /\
  rq_type_filling request = ORDER_FILLING_IOC.
Proof.
  run_script; cbn;
    (let H := fresh "H" in
     intros H; repeat (destruct H as [H | H]); try contradiction;
     subst request; cbn; repeat split;
     match goal with
     | |- context [py_eq_str ?a ?s] => destruct (py_eq_str a s); auto
     end).
Qed.

(** X14: the terminal is asked about a symbol only once the five fields of
    the signal have been read and [volume], [tp] and [sl] coerced, and the
    symbol it is asked about is the symbol of the signal. *)
Theorem symbol_queried_after_validation (signal_data : pyval) (t : T)
  (s : pyval) :
  In s (symbols_queried
          (trace (snd (run_execute_trade mt5 bi signal_data t)))) ->
  exists volume action tp sl,
    signal_fields bi signal_data s volume action tp sl.
Proof.
  run_script; cbn;
    (let H := fresh "H" in
     intros H; repeat (destruct H as [H | H]); try contradiction;
     subst s; do 4 eexists; unfold signal_fields; do 3 eexists;
     repeat split; eassumption).
Qed.

(** X15: the script reads five fields and nothing else: two signals that
    agree on "symbol", "volume", "action", "tp" and "sl" give the same run,
    whatever other entries they carry. *)
Theorem other_entries_ignored (d d' : list (string * pyval)) (t : T) :
  (forall f, In f required_fields -> dict_get d f = dict_get d' f) ->
  run_execute_trade mt5 bi (PDict d) t = run_execute_trade mt5 bi (PDict d') t.
Proof.
  intros H.
  pose proof (H "symbol" ltac:(cbn; auto)) as Hsym.
  pose proof (H "volume" ltac:(cbn; auto)) as Hvol.
  pose proof (H "action" ltac:(cbn; auto)) as Hact.
  pose proof (H "tp" ltac:(cbn; auto 6)) as Htp.
  pose proof (H "sl" ltac:(cbn; auto 6)) as Hsl.
  unfold run_execute_trade, execute_trade, execute_trade_body,
    validate_required_fields, required_fields, for_each, require_field.
  cbn [py_contains py_getitem].
  rewrite Hsym, Hvol, Hact, Htp, Hsl. reflexivity.
Qed.

(** X16: a signal that is [null], a Boolean or a number cannot be searched
    for a field: the membership test raises [TypeError], and the run
    reports an "EXECUTION_ERROR" and closes the session. *)
Theorem scalar_signal_reported (signal_data : pyval) (t0 t1 : T) :
  initialize mt5 t0 = (true, t1) ->
  type_name signal_data = "NoneType" \/ type_name signal_data = "bool" \/
  type_name signal_data = "int" \/ type_name signal_data = "float" ->
  run_execute_trade mt5 bi signal_data t0 =
  (Ret tt,
   {| term := shutdown mt5 t1;
      trace :=
        [Call_initialize;
         Print (PDict [("success", PBool false);
                       ("error",
                        PDict [("type", PStr "EXECUTION_ERROR");
                               ("message",
                                PStr ("argument of type '"
                                      ++ type_name signal_data
                                      ++ "' is not iterable"))])]);
         Call_shutdown] |}).
Proof.
  intros Hinit Hty.
  destruct signal_data; cbn in Hty;
    try (destruct Hty as [Hty | [Hty | [Hty | Hty]]]; discriminate Hty);
    unfold_script; answer Hinit; reflexivity.
Qed.

(** X17: a signal that is a list or a string passes the field check when
    the five names are among its elements, or occur in it; it then fails at
    the first subscript with [TypeError], and the run reports an
    "EXECUTION_ERROR" without a query to the terminal. *)
Theorem sequence_signal_reported (signal_data : pyval) (t0 t1 : T) :
  initialize mt5 t0 = (true, t1) ->
  type_name signal_data = "list" \/ type_name signal_data = "str" ->
  (forall f, In f required_fields -> py_contains f signal_data = Ok true) ->
  run_execute_trade mt5 bi signal_data t0 =
  (Ret tt,
   {| term := shutdown mt5 t1;
      trace :=
        [Call_initialize;
         Print (PDict [("success", PBool false);
                       ("error",
                        PDict [("type", PStr "EXECUTION_ERROR");
                               ("message",
                                PStr (if String.eqb (type_name signal_data)
                                           "list"
                                      then "list indices must be integers or slices, not str"
                                      else "string indices must be integers, not 'str'"))])]);
         Call_shutdown] |}).
Proof.
  intros Hinit Hty Hall.
  unfold run_execute_trade, execute_trade, execute_trade_body, try_except.
  unfold bind at 1. unfold initialize_mt5, bind at 1, mt5_initialize.
  cbn [start term]. rewrite Hinit. cbn [negb ret].
  unfold bind at 1. unfold validate_required_fields.
  rewrite for_each_all_pass by exact Hall.
  destruct signal_data; cbn in Hty;
    try (destruct Hty as [Hty | Hty]; discriminate Hty); reflexivity.
Qed.

(** X18: a document with [success: true] is printed by [execute_trade]
    only when the terminal answered the one request sent with a result
    whose status is [TRADE_RETCODE_DONE]; the document is made of that
    result, and the session closed is the one that call left. *)
Theorem success_only_when_done (signal_data : pyval) (t : T)
  (document : pyval) :
  let run := run_execute_trade mt5 bi signal_data t in
  In document (printed (trace (snd run))) ->
  success_of document = Some (PBool true) ->
  exists request r t' t'',
    orders_sent (trace (snd run)) = [request] /\
    order_send mt5 request t' = (Returns (Some r), t'') /\
    retcode r = TRADE_RETCODE_DONE /\
    document = order_response r /\
    term (snd run) = shutdown mt5 t''.
Proof.
  run_script; cbn;
    (let H := fresh "H" in
     let S := fresh "S" in
     intros H S; repeat (destruct H as [H | H]); try contradiction;
     subst document; try discriminate S).
  all: do 4 eexists.
  all: split; [reflexivity |].
  all: split; [eassumption |].
  all: split; [apply Z.eqb_eq; assumption |].
  all: split; reflexivity.
Qed.

(** X19: an integer [volume] too large for a float makes the coercion
    raise [OverflowError], which the run reports as an "EXECUTION_ERROR"
    before any query about the symbol. *)
Theorem oversized_volume_reported (d : list (string * pyval)) (z : Z)
  (t0 t1 : T) :
  initialize mt5 t0 = (true, t1) ->
  (forall f, In f required_fields -> dict_get d f <> None) ->
  dict_get d "volume" = Some (PInt z) ->
  float_of_int z = None ->
  run_execute_trade mt5 bi (PDict d) t0 =
  (Ret tt,
   {| term := shutdown mt5 t1;
      trace :=
        [Call_initialize;
         Print (PDict [("success", PBool false);
                       ("error",
                        PDict [("type", PStr "EXECUTION_ERROR");
                               ("message",
                                PStr "int too large to convert to float")])]);
         Call_shutdown] |}).
Proof.
  intros Hinit Hall Hvol Hbig.
  destruct (dict_get d "symbol") as [symbol |] eqn:Hsym;
    [| exfalso; apply (Hall "symbol"); [cbn; auto | exact Hsym]].
  unfold run_execute_trade, execute_trade, execute_trade_body, try_except.
  unfold bind at 1. unfold initialize_mt5, bind at 1, mt5_initialize.
  cbn [start term]. rewrite Hinit. cbn [negb ret].
  unfold bind at 1. unfold validate_required_fields.
  rewrite for_each_all_pass
    by (intros f Hf; apply contains_dict, Hall, Hf).
  unfold bind, lift. cbn [py_getitem]. rewrite Hsym, Hvol.
  cbn [py_float]. rewrite Hbig. reflexivity.
Qed.

End Paths.

(** ** The theorems at work on the scripted terminal *)

Module Examples.

Import Sample.

Lemma demo_signal_fields (volume : pyfloat) (action : pyval) :
  signal_fields builtins (signal (PFloat volume) action)
    (PStr "EURUSD") volume action f1_2 f1_1.
Proof.
  exists (PFloat volume), (PFloat f1_2), (PFloat f1_1).
  repeat split; reflexivity.
Defined.

Lemma demo_quote_available (a : Answers) :
  on_symbol_info a = knows_EURUSD true ->
  on_symbol_info_tick a = (fun _ => Returns (Some quote)) ->
  quote_available (terminal a) (PStr "EURUSD") true quote true.
Proof.
  intros Hinfo Htick.
  exists {| visible := true |}, true, true. repeat split.
  - simpl. rewrite Hinfo. reflexivity.
  - left. split; reflexivity.
  - simpl. rewrite Htick. reflexivity.
Defined.

(** A buy of 0.1 lot of EURUSD: the request goes out at the ask price. *)
Lemma execute_trade_request_witness :
  orders_sent
    (trace (snd (run_execute_trade (terminal demo) builtins
                   (signal (PFloat f0_1) (PStr "BUY")) false))) =
  [ {| rq_action := 1; rq_symbol := PStr "EURUSD"; rq_volume := f0_1;
       rq_type := 0; rq_price := f1_0851; rq_sl := f1_1; rq_tp := f1_2;
       rq_deviation := 10; rq_magic := 202504;
       rq_comment := "Teaka AutoExec";
       rq_type_time := 0; rq_type_filling := 1 |} ].
Proof.
  exact (execute_trade_request (terminal demo) builtins
           (signal (PFloat f0_1) (PStr "BUY")) (PStr "EURUSD") (PStr "BUY")
           f0_1 f1_2 f1_1 quote false true true eq_refl
           (demo_signal_fields f0_1 (PStr "BUY"))
           (demo_quote_available demo eq_refl eq_refl)).
Defined.

(** The action "HOLD" is not "BUY": the order is a sell at the bid price. *)
Lemma order_side_and_price_witness :
  exists request,
    orders_sent
      (trace (snd (run_execute_trade (terminal demo) builtins
                     (signal (PFloat f0_1) (PStr "HOLD")) false))) =
    [request] /\
    (PStr "HOLD" = PStr "BUY" ->
     rq_type request = ORDER_TYPE_BUY /\ rq_price request = ask quote) /\
    (PStr "HOLD" <> PStr "BUY" ->
     rq_type request = ORDER_TYPE_SELL /\ rq_price request = bid quote).
Proof.
  exact (order_side_and_price (terminal demo) builtins
           (signal (PFloat f0_1) (PStr "HOLD")) (PStr "EURUSD") (PStr "HOLD")
           f0_1 f1_2 f1_1 quote false true true eq_refl
           (demo_signal_fields f0_1 (PStr "HOLD"))
           (demo_quote_available demo eq_refl eq_refl)).
Defined.

(** Of the two fields the signal lacks, [tp] is checked first and is the
    one named. *)
Lemma missing_field_reported_witness :
  run_execute_trade (terminal demo) builtins (PDict signal_without_tp) false =
  (Ret tt,
   {| term := false;
      trace :=
        [Call_initialize;
         Print (PDict [("success", PBool false);
                       ("error",
                        PDict [("type", PStr "VALIDATION_ERROR");
                               ("message",
                                PStr "Missing required field: tp")])]);
         Call_shutdown] |}).
Proof.
  apply (missing_field_reported (terminal demo) builtins signal_without_tp
           ["symbol"; "volume"; "action"] ["sl"] "tp" false true).
  - reflexivity.
  - reflexivity.
  - intros f [<- | [<- | [<- | []]]]; discriminate.
  - reflexivity.
Defined.

(** [{"symbol": "EURUSD", "volume": null, "action": "BUY", "tp": 1.2,
    "sl": 1.1}] is reported as an execution error. *)
Lemma untyped_volume_witness :
  printed
    (trace (snd (run_execute_trade (terminal demo) builtins
                   (signal PNone (PStr "BUY")) false))) =
  [PDict [("success", PBool false);
          ("error",
           PDict [("type", PStr "EXECUTION_ERROR");
                  ("message",
                   PStr "float() argument must be a string or a real number, not 'NoneType'")])]].
Proof.
  apply (untyped_volume_reported_as_execution_error (terminal demo) builtins
           [("symbol", PStr "EURUSD"); ("volume", PNone);
            ("action", PStr "BUY"); ("tp", PFloat f1_2); ("sl", PFloat f1_1)]
           PNone false true).
  - reflexivity.
  - intros f [<- | [<- | [<- | [<- | [<- | []]]]]]; discriminate.
  - reflexivity.
  - left. reflexivity.
Defined.

(** C5 fails as stated: the terminal rejects the order with the comment
    "Invalid stops" and a status code that is not [TRADE_RETCODE_DONE], and
    the message printed is not that comment. *)
Lemma rejected_order_message_is_not_the_comment :
  let mt5 := terminal rejecting in
  let run := run_execute_trade mt5 builtins
               (signal (PFloat f0_1) (PStr "SELL")) false in
  exists request r,
    orders_sent (trace (snd run)) = [request] /\
    order_send mt5 request true = (Returns (Some r), true) /\
    retcode r <> TRADE_RETCODE_DONE /\
    comment r = "Invalid stops" /\
    printed (trace (snd run)) <>
    [PDict [("success", PBool false);
            ("error", PDict [("type", PStr "EXECUTION_ERROR");
                             ("message", PStr (comment r))])]].
Proof.
  cbv zeta. eexists. eexists.
  split; [reflexivity |].
  split; [reflexivity |].
  split; [discriminate |].
  split; [reflexivity |].
  discriminate.
Qed.

Lemma rejected_order_reported_witness :
  let run := run_execute_trade (terminal rejecting) builtins
               (signal (PFloat f0_1) (PStr "SELL")) false in
  fst run = Ret tt /\
  printed (trace (snd run)) =
  [PDict [("success", PBool false);
          ("error", PDict [("type", PStr "EXECUTION_ERROR");
                           ("message",
                            PStr "Order failed: Invalid stops")])]] /\
  shutdown_called (trace (snd run)) = true.
Proof.
  refine (rejected_order_reported (terminal rejecting) builtins
            (signal (PFloat f0_1) (PStr "SELL")) (PStr "EURUSD") (PStr "SELL")
            f0_1 f1_2 f1_1 quote false true true true
            {| retcode := 10016; order := 0; volume := f0_1; price := f1_085;
               comment := "Invalid stops" |}
            eq_refl
            (demo_signal_fields f0_1 (PStr "SELL"))
            (demo_quote_available rejecting eq_refl eq_refl)
            eq_refl _).
  discriminate.
Defined.

(** C6 fails as stated.  A command line that [argparse] rejects ends the
    process with status 2, which is neither 1 nor 0, and no session was
    asked for.  Input nested too deep for [json.loads] ends it with status
    1, and there too [initialize] was never called. *)
Lemma exit_status_is_not_0_or_1_by_session :
  let rejected :=
    run_command_line (terminal demo) builtins Usage_error
      (Ok (signal (PFloat f0_1) (PStr "BUY"))) false in
  let unread :=
    run_command_line (terminal demo) builtins (Namespace false)
      (Err RecursionError "maximum recursion depth exceeded") false in
  (fst rejected <> 1 /\ fst rejected <> 0 /\ snd rejected = []) /\
  (fst unread = 1 /\ initialize (terminal demo) false = (true, true) /\
   snd unread = []).
Proof.
  cbv zeta. split; [split; [| split] | split; [| split]];
    try reflexivity; discriminate.
Qed.

Lemma exit_status_by_path_witness :
  fst (run_command_line (terminal unreachable) builtins (Namespace true)
         (Ok PNone) false) = 1 /\
  fst (run_command_line (terminal unreachable) builtins (Namespace false)
         (Err JSONDecodeError "Expecting value") false) = 0 /\
  fst (run_command_line (terminal rejecting) builtins (Namespace false)
         (Ok (signal (PFloat f0_1) (PStr "BUY"))) false) = 0 /\
  fst (run_command_line (terminal demo) builtins Usage_error
         (Ok PNone) false) = 2.
Proof.
  split; [| split; [| split]].
  - exact (exit_status_by_path (terminal unreachable) builtins
             (Namespace true) (Ok PNone) false eq_refl).
  - exact (exit_status_by_path (terminal unreachable) builtins
             (Namespace false) (Err JSONDecodeError "Expecting value") false
             eq_refl).
  - exact (exit_status_by_path (terminal rejecting) builtins
             (Namespace false) (Ok (signal (PFloat f0_1) (PStr "BUY"))) false
             eq_refl).
  - exact (exit_status_by_path (terminal demo) builtins
             Usage_error (Ok PNone) false).
Defined.

(** [--check-connection] on a terminal whose account query fails: no call
    to [shutdown]. *)
Lemma failed_check_witness :
  run_process (terminal broken_account) builtins true (Ok PNone) false =
  (0, [Call_initialize; Call_account_info;
       Print (connection_error "IPC recv failed")]) /\
  shutdown_called
    (snd (run_process (terminal broken_account) builtins true (Ok PNone)
            false))
  = false.
Proof.
  apply (failed_check_leaves_session_open (terminal broken_account) builtins
           (Ok PNone) TerminalFailure "IPC recv failed" false true true);
    reflexivity.
Defined.

Lemma check_connection_output_witness :
  printed (trace (snd (run_check_connection (terminal demo) false))) =
  [PDict [("success", PBool true);
          ("account_info", PDict [("login", PInt 5012345);
                                  ("server", PStr "Demo-Server");
                                  ("balance", PFloat f10000);
                                  ("equity", PFloat f10000)])]].
Proof.
  exact (check_connection_output (terminal demo) false true eq_refl).
Defined.

Lemma check_connection_idempotent_witness :
  map account_info_of
    (printed (trace (snd (run_check_connection (terminal demo)
        (term (snd (run_check_connection (terminal demo) false))))))) =
  map account_info_of
    (printed (trace (snd (run_check_connection (terminal demo) false)))).
Proof.
  exact (check_connection_idempotent (terminal demo) false eq_refl eq_refl).
Defined.



End Examples.

(** ** The paths of the script on the scripted terminal *)

Module PathExamples.

Import Sample.

Lemma fields_of (symbol : string) (volume : pyfloat) :
  signal_fields builtins (PDict (fields_for symbol (PFloat volume)))
    (PStr symbol) volume (PStr "BUY") f1_2 f1_1.
Proof.
  exists (PFloat volume), (PFloat f1_2), (PFloat f1_1).
  unfold fields_for, py_getitem, dict_get.
  rewrite ?String.eqb_refl. cbn. repeat split; reflexivity.
Defined.

Lemma EURUSD_quoted (a : Answers) :
  on_symbol_info a = knows_EURUSD true ->
  on_symbol_info_tick a = (fun _ => Returns (Some quote)) ->
  quote_available (terminal a) (PStr "EURUSD") true quote true.
Proof.
  intros Hinfo Htick.
  exists {| visible := true |}, true, true. repeat split.
  - simpl. rewrite Hinfo. reflexivity.
  - left. split; reflexivity.
  - simpl. rewrite Htick. reflexivity.
Defined.

(** A buy of 0.1 lot that the terminal fills: the ticket printed is the
    order number of the result. *)
Lemma filled_order_witness :
  let run := run_execute_trade (terminal demo) builtins
               (PDict (fields_for "EURUSD" (PFloat f0_1))) false in
  fst run = Ret tt /\
  printed (trace (snd run)) =
  [PDict [("success", PBool true);
          ("order", PDict [("ticket", PInt 123456);
                           ("volume", PFloat f0_1);
                           ("price", PFloat f1_0851);
                           ("comment", PStr "Request executed")])]] /\
  term (snd run) = false /\
  last (trace (snd run)) Call_initialize = Call_shutdown.
Proof.
  exact (filled_order_reported (terminal demo) builtins
           (PDict (fields_for "EURUSD" (PFloat f0_1)))
           (PStr "EURUSD") (PStr "BUY") f0_1 f1_2 f1_1 quote
           false true true true filled
           eq_refl (fields_of "EURUSD" f0_1)
           (EURUSD_quoted demo eq_refl eq_refl) eq_refl eq_refl).
Defined.

Lemma unknown_symbol_witness :
  run_execute_trade (terminal demo) builtins
    (PDict (fields_for "XAUUSD" (PFloat f0_1))) false =
  (Ret tt,
   {| term := false;
      trace :=
        [Call_initialize; Call_symbol_info (PStr "XAUUSD");
         Print (PDict [("success", PBool false);
                       ("error",
                        PDict [("type", PStr "VALIDATION_ERROR");
                               ("message",
                                PStr "Symbol XAUUSD not found")])]);
         Call_shutdown] |}).
Proof.
  exact (unknown_symbol_reported (terminal demo) builtins
           (PDict (fields_for "XAUUSD" (PFloat f0_1)))
           (PStr "XAUUSD") (PStr "BUY") f0_1 f1_2 f1_1 false true true
           eq_refl (fields_of "XAUUSD" f0_1) eq_refl).
Defined.

Lemma selection_failure_witness :
  run_execute_trade (terminal unselectable) builtins
    (PDict (fields_for "EURUSD" (PFloat f0_1))) false =
  (Ret tt,
   {| term := false;
      trace :=
        [Call_initialize; Call_symbol_info (PStr "EURUSD");
         Call_symbol_select (PStr "EURUSD") true;
         Print (PDict [("success", PBool false);
                       ("error",
                        PDict [("type", PStr "VALIDATION_ERROR");
                               ("message",
                                PStr "Symbol EURUSD selection failed")])]);
         Call_shutdown] |}).
Proof.
  exact (selection_failure_reported (terminal unselectable) builtins
           (PDict (fields_for "EURUSD" (PFloat f0_1)))
           (PStr "EURUSD") (PStr "BUY") f0_1 f1_2 f1_1
           {| visible := false |} false true true true
           eq_refl (fields_of "EURUSD" f0_1) eq_refl eq_refl eq_refl).
Defined.

Lemma missing_quote_witness :
  let run := run_execute_trade (terminal unquoted) builtins
               (PDict (fields_for "EURUSD" (PFloat f0_1))) false in
  fst run = Ret tt /\
  printed (trace (snd run)) =
  [PDict [("success", PBool false);
          ("error",
           PDict [("type", PStr "VALIDATION_ERROR");
                  ("message", PStr "Failed to get price for EURUSD")])]] /\
  orders_sent (trace (snd run)) = [] /\
  term (snd run) = false /\
  last (trace (snd run)) Call_initialize = Call_shutdown.
Proof.
  exact (missing_quote_reported (terminal unquoted) builtins
           (PDict (fields_for "EURUSD" (PFloat f0_1)))
           (PStr "EURUSD") (PStr "BUY") f0_1 f1_2 f1_1
           {| visible := true |} false true true true true
           eq_refl (fields_of "EURUSD" f0_1) eq_refl
           (or_introl (conj eq_refl eq_refl)) eq_refl).
Defined.

Lemma absent_result_witness :
  let run := run_execute_trade (terminal silent) builtins
               (PDict (fields_for "EURUSD" (PFloat f0_1))) false in
  fst run = Ret tt /\
  printed (trace (snd run)) =
  [PDict [("success", PBool false);
          ("error",
           PDict [("type", PStr "EXECUTION_ERROR");
                  ("message",
                   PStr "'NoneType' object has no attribute 'retcode'")])]] /\
  orders_sent (trace (snd run)) =
  [build_request (PStr "EURUSD") f0_1 (PStr "BUY") f1_2 f1_1 quote] /\
  last (trace (snd run)) Call_initialize = Call_shutdown.
Proof.
  exact (absent_result_reported (terminal silent) builtins
           (PDict (fields_for "EURUSD" (PFloat f0_1)))
           (PStr "EURUSD") (PStr "BUY") f0_1 f1_2 f1_1 quote
           false true true true
           eq_refl (fields_of "EURUSD" f0_1)
           (EURUSD_quoted silent eq_refl eq_refl) eq_refl).
Defined.

Lemma symbol_selected_witness :
  selections
    (trace (snd (run_execute_trade (terminal hidden) builtins
                   (PDict (fields_for "EURUSD" (PFloat f0_1))) false))) =
  [(PStr "EURUSD", true)].
Proof.
  exact (symbol_selected_only_when_hidden (terminal hidden) builtins
           (PDict (fields_for "EURUSD" (PFloat f0_1)))
           (PStr "EURUSD") (PStr "BUY") f0_1 f1_2 f1_1
           {| visible := false |} false true true
           eq_refl (fields_of "EURUSD" f0_1) eq_refl).
Defined.

Lemma initialization_failure_witness :
  run_process (terminal unreachable) builtins false
    (Ok (PDict (fields_for "EURUSD" (PFloat f0_1)))) false =
  (1,
   [Call_initialize; Call_last_error;
    Print (PDict [("success", PBool false);
                  ("error",
                   PDict [("code", PList [PInt (-10003);
                                          PStr "IPC initialize failed"]);
                          ("message", PStr "MT5 initialization failed")])]);
    Call_shutdown]).
Proof.
  exact (initialization_failure_reported (terminal unreachable) builtins false
           (Ok (PDict (fields_for "EURUSD" (PFloat f0_1))))
           (-10003, "IPC initialize failed") false false false
           eq_refl eq_refl eq_refl).
Defined.

Lemma check_connection_logged_out_witness :
  run_check_connection (terminal logged_out) false =
  (Ret false,
   {| term := false;
      trace := [Call_initialize; Call_account_info;
                Print (PDict [("success", PBool false);
                              ("account_info", PNone)]);
                Call_shutdown] |}).
Proof.
  exact (check_connection_returns_connected (terminal logged_out) None
           false true true eq_refl eq_refl).
Defined.

Lemma every_order_witness :
  let request := build_request (PStr "EURUSD") f0_1 (PStr "BUY") f1_2 f1_1
                   quote in
  py_getitem builtins (PDict (fields_for "EURUSD" (PFloat f0_1))) "symbol" =
  Ok (rq_symbol request) /\
  rq_action request = TRADE_ACTION_DEAL /\
  (rq_type request = ORDER_TYPE_BUY \/ rq_type request = ORDER_TYPE_SELL) /\
  rq_deviation request = 10 /\
  rq_magic request = 202504 /\
  rq_comment request = "Teaka AutoExec" /\
  rq_type_time request = ORDER_TIME_GTC /\
  rq_type_filling request = ORDER_FILLING_IOC.
Proof.
  apply (every_order_is_a_market_deal (terminal demo) builtins
           (PDict (fields_for "EURUSD" (PFloat f0_1))) false).
  left. reflexivity.
Defined.

Lemma symbol_queried_witness :
  exists volume action tp sl,
    signal_fields builtins (PDict (fields_for "EURUSD" (PFloat f0_1)))
      (PStr "EURUSD") volume action tp sl.
Proof.
  apply (symbol_queried_after_validation (terminal demo) builtins
           (PDict (fields_for "EURUSD" (PFloat f0_1))) false).
  left. reflexivity.
Defined.

Lemma other_entries_witness :
  run_execute_trade (terminal demo) builtins (PDict annotated_fields) false =
  run_execute_trade (terminal demo) builtins
    (PDict (fields_for "EURUSD" (PFloat f0_1))) false.
Proof.
  apply (other_entries_ignored (terminal demo) builtins).
  intros f [<- | [<- | [<- | [<- | [<- | []]]]]]; reflexivity.
Defined.

Lemma scalar_signal_witness :
  run_execute_trade (terminal demo) builtins (PInt 42) false =
  (Ret tt,
   {| term := false;
      trace :=
        [Call_initialize;
         Print (PDict [("success", PBool false);
                       ("error",
                        PDict [("type", PStr "EXECUTION_ERROR");
                               ("message",
                                PStr "argument of type 'int' is not iterable")])]);
         Call_shutdown] |}).
Proof.
  apply (scalar_signal_reported (terminal demo) builtins (PInt 42) false true).
  - reflexivity.
  - right. right. left. reflexivity.
Defined.

(** The JSON string "symbol volume action tp sl" holds the five names. *)
Lemma sequence_signal_witness :
  run_execute_trade (terminal demo) builtins
    (PStr "symbol volume action tp sl") false =
  (Ret tt,
   {| term := false;
      trace :=
        [Call_initialize;
         Print (PDict [("success", PBool false);
                       ("error",
                        PDict [("type", PStr "EXECUTION_ERROR");
                               ("message",
                                PStr "string indices must be integers, not 'str'")])]);
         Call_shutdown] |}).
Proof.
  apply (sequence_signal_reported (terminal demo) builtins
           (PStr "symbol volume action tp sl") false true).
  - reflexivity.
  - right. reflexivity.
  - intros f [<- | [<- | [<- | [<- | [<- | []]]]]]; reflexivity.
Defined.

Lemma success_only_when_done_witness :
  let run := run_execute_trade (terminal demo) builtins
               (PDict (fields_for "EURUSD" (PFloat f0_1))) false in
  exists request r t' t'',
    orders_sent (trace (snd run)) = [request] /\
    order_send (terminal demo) request t' = (Returns (Some r), t'') /\
    retcode r = TRADE_RETCODE_DONE /\
    order_response filled = order_response r /\
    term (snd run) = shutdown (terminal demo) t''.
Proof.
  apply (success_only_when_done (terminal demo) builtins
           (PDict (fields_for "EURUSD" (PFloat f0_1))) false
           (order_response filled)).
  - left. reflexivity.
  - reflexivity.
Defined.


(** Input nested too deep for [json.loads]. *)
Lemma unread_input_witness :
  run_process (terminal demo) builtins false
    (Err RecursionError "maximum recursion depth exceeded") false = (1, []).
Proof.
  exact (unread_input_is_fatal (terminal demo) builtins RecursionError
           "maximum recursion depth exceeded" false eq_refl).
Defined.

(** 2^1024 is the first power of two that no float holds. *)
Lemma oversized_volume_witness :
  run_execute_trade (terminal demo) builtins
    (PDict (fields_for "EURUSD" (PInt (2 ^ 1024)))) false =
  (Ret tt,
   {| term := false;
      trace :=
        [Call_initialize;
         Print (PDict [("success", PBool false);
                       ("error",
                        PDict [("type", PStr "EXECUTION_ERROR");
                               ("message",
                                PStr "int too large to convert to float")])]);
         Call_shutdown] |}).
Proof.
  apply (oversized_volume_reported (terminal demo) builtins
           (fields_for "EURUSD" (PInt (2 ^ 1024))) (2 ^ 1024) false true).
  - reflexivity.
  - intros f [<- | [<- | [<- | [<- | [<- | []]]]]]; discriminate.
  - reflexivity.
  - vm_compute. reflexivity.
Defined.

(** "abc" is no number. *)
Lemma unparsable_volume_witness :
  printed
    (trace (snd (run_execute_trade (terminal demo) builtins
                   (PDict (fields_for "EURUSD" (PStr "abc"))) false))) =
  [error_document "VALIDATION_ERROR"
     "could not convert string to float: 'abc'"].
Proof.
  apply (unparsable_volume_reported (terminal demo) builtins
           (fields_for "EURUSD" (PStr "abc")) "abc" false true).
  - reflexivity.
  - intros f [<- | [<- | [<- | [<- | [<- | []]]]]]; discriminate.
  - reflexivity.
  - reflexivity.
Defined.

End PathExamples.
